(** * OpenHantek6022 (ISDS205B fork): model table and program start-up/shutdown

    A shallow embedding of

    - [src/openhantek/src/hantekdso/models/modelISDS205b.cpp]: the
      capability table written by [initSpecifications] and the command
      registration of [applyRequirements_];
    - [src/openhantek/src/main.cpp]: the device selection at start-up, the
      construction of the control and post-processing chain, and the
      stepwise clean-up after the GUI loop has returned; also the font
      settings and the shader language version taken from the command line.

    C++ [double] values are binary64 floats ([PrimFloat.float]); decimal
    literals are rounded to the nearest binary64 value, as a C++ compiler
    does.  [unsigned] values are integers in [Z] with the 32-bit wrap-around
    written out where the code computes with them. *)

From Stdlib Require Import ZArith Lia Strings.String.
From Stdlib Require Import Floats.PrimFloat Floats.SpecFloat Floats.FloatOps.
From Stdlib Require Uint63.
From stdpp Require Import base option list.

Set Warnings "-inexact-float".
Local Open Scope Z_scope.

(** ** Binary64 helpers *)

Module Double.

(** Conversion of an unsigned integer below 2^53 to [double] (exact). *)
Definition of_unsigned (n : Z) : float := PrimFloat.of_uint63 (Uint63.of_Z n).

(** A finite double is [(-1)^s * m * 2^e]; this is its integer part,
    rounded toward zero, as a non-negative magnitude. *)
Definition magnitude (m : positive) (e : Z) : Z :=
  if 0 <=? e then Z.pos m * 2 ^ e else Z.pos m / 2 ^ (- e).

(** Whether a double holds an integer value. *)
Definition is_integral (f : float) : bool :=
  match Prim2SF f with
  | S754_zero _ => true
  | S754_finite _ m e => if 0 <=? e then true else Z.pos m mod 2 ^ (- e) =? 0
  | S754_infinity _ | S754_nan => false
  end.

(** The C++ conversion [unsigned( d )]: the value is truncated toward
    zero; when the truncated value does not fit the 32-bit type the
    behaviour is undefined, which is [None] here. *)
Definition to_unsigned (f : float) : option Z :=
  match Prim2SF f with
  | S754_zero _ => Some 0
  | S754_finite s m e =>
      let q := magnitude m e in
      if s then (if q =? 0 then Some 0 else None)
      else if q <? 2 ^ 32 then Some q else None
  | S754_infinity _ | S754_nan => None
  end.

End Double.

(** ** The capability table, [Dso::ControlSpecification] *)

Module Dso.

Inductive Coupling := AC | DC.
Inductive TriggerMode := AUTO | NORMAL | SINGLE | ROLL.

(** One gain step: the hardware gain id and the voltage step in V/div. *)
Record ControlSpecificationGainLevel := GainLevel {
  gainID : Z;
  Vdiv : float
}.

(** One line of [fixedSampleRates]: samplerate, sampleId, downsampling. *)
Record FixedSampleRate := FixedRate {
  samplerate : float;
  sampleId : Z;
  downsampling : Z
}.

Record ControlSamplerateLimits := SamplerateLimits {
  base : float;
  max : float;
  recordLengths : list Z
}.

Record ControlSpecificationSamplerate := SpecSamplerate {
  single : ControlSamplerateLimits;
  multi : ControlSamplerateLimits
}.

Record ControlSpecification := Specification {
  channels : nat;
  gain : list ControlSpecificationGainLevel;
  voltageScale : list (list float);
  specSamplerate : ControlSpecificationSamplerate;
  fixedSampleRates : list FixedSampleRate;
  couplings : list Coupling;
  hasACcoupling : bool;
  triggerModes : list TriggerMode;
  fixedUSBinLength : Z;
  calfreqSteps : list Z;
  hasCalibrationEEPROM : bool
}.

End Dso.

Import Dso.

Definition UINT_MAX : Z := 2 ^ 32 - 1.

(** [initSpecifications( specification )]: every assignment of the function,
    in order, on the specification passed by reference.  The two indexed
    assignments to [voltageScale] need a vector of at least two slots, which
    [Dso::ControlSpecification( 2 )] provides; on a shorter vector they are
    out of bounds in C++ and the value given here has no meaning.  What is
    proved about the per-channel tables assumes the two slots. *)
Definition initSpecifications (specification : ControlSpecification)
  : ControlSpecification :=
  {| channels := channels specification;
     gain :=
       [ GainLevel 10 20e-3; GainLevel 10 50e-3; GainLevel 10 100e-3;
         GainLevel 5 200e-3; GainLevel 2 500e-3; GainLevel 1 1.00;
         GainLevel 1 2.00; GainLevel 1 5.00 ];
     voltageScale :=
       <[ 1%nat := [ 1276; 1276; 1276; 90; 37; 21.5; 21.5; 21.5 ]%float ]>
         (<[ 0%nat := [ 1276; 1276; 1276; 90; 37; 21.5; 21.5; 21.5 ]%float ]>
            (voltageScale specification));
     specSamplerate :=
       {| single := {| base := 1e6; max := 30e6; recordLengths := [ UINT_MAX ] |};
          multi := {| base := 1e6; max := 15e6; recordLengths := [ UINT_MAX ] |} |};
     fixedSampleRates :=
       [ FixedRate 100e3 10 1;
         FixedRate 200e3 20 1;
         FixedRate 500e3 50 1;
         FixedRate 1e6 1 1;
         FixedRate 2e6 8 4;
         FixedRate 7e6 24 3;
         FixedRate 4e6 4 1;
         FixedRate 8e6 8 1;
         FixedRate 16e6 16 1;
         FixedRate 24e6 24 1;
         FixedRate 30e6 30 1;
         FixedRate 48e6 48 1 ];
     couplings := [ DC; AC ];
     hasACcoupling := true;
     triggerModes := [ AUTO; NORMAL; SINGLE; ROLL ];
     fixedUSBinLength := 0;
     calfreqSteps := [ 100; 1000; 10000; 25000 ];
     hasCalibrationEEPROM := false |}.

(** The [ModelISDS205B] constructor: the [DSOModel] base is built from the
    identifiers and a fresh [Dso::ControlSpecification( 2 )], then the body
    runs [initSpecifications( specification )].  The class
    [Dso::ControlSpecification] is declared outside this file, so the fresh
    specification is the argument [fresh]. *)
Record DSOModel := {
  vendorID : Z;
  productID : Z;
  vendorIDnoFirmware : Z;
  productIDnoFirmware : Z;
  firmwareVersion : Z;
  firmwareToken : string;
  name : string;
  specification : ControlSpecification
}.

Definition ModelISDS205B (fresh : ControlSpecification) : DSOModel :=
  {| vendorID := 0x1d50;
     productID := 0x608e;
     vendorIDnoFirmware := 0xd4a2;
     productIDnoFirmware := 0x5661;
     firmwareVersion := 0x0005;
     firmwareToken := "isds205b";
     name := "ISDS-205B";
     specification := initSpecifications fresh |}.

(** A specification for [n] channels with nothing filled in yet: the
    per-channel vector has one (empty) slot per channel.  Used as a sample
    argument of [initSpecifications]. *)
Definition blank (n : nat) : ControlSpecification :=
  {| channels := n;
     gain := [];
     voltageScale := replicate n [];
     specSamplerate :=
       {| single := {| base := 0; max := 0; recordLengths := [] |};
          multi := {| base := 0; max := 0; recordLengths := [] |} |};
     fixedSampleRates := [];
     couplings := [];
     hasACcoupling := false;
     triggerModes := [];
     fixedUSBinLength := 0;
     calfreqSteps := [];
     hasCalibrationEEPROM := false |}.

(** ** Properties of tables *)

Section Ascending.
Context {A : Type} (le : A -> A -> bool).

(** Entries at positions [i < j] are in order. *)
Definition ascending (l : list A) : Prop :=
  forall (i j : nat) (a b : A),
    (i < j)%nat -> l !! i = Some a -> l !! j = Some b -> le a b = true.

(** The same, as a check that runs. *)
Fixpoint ascendingb (l : list A) : bool :=
  match l with
  | [] => true
  | a :: t => forallb (le a) t && ascendingb t
  end.

End Ascending.

Definition rate_le (a b : FixedSampleRate) : bool :=
  (samplerate a <=? samplerate b)%float.

Definition Vdiv_le (a b : ControlSpecificationGainLevel) : bool :=
  (Vdiv a <=? Vdiv b)%float.

(** The raw rates the table says the device captures at: the rates of the
    lines that are not downsampled. *)
Definition raw_rate_domain (l : list FixedSampleRate) : list float :=
  samplerate <$> filter (fun e => downsampling e = 1) l.

Definition in_domain (l : list FixedSampleRate) (r : float) : bool :=
  existsb (fun d => (d =? r)%float) (raw_rate_domain l).

(** The raw rate the table implies for a sample id: the rate of the line
    with that id that is not downsampled. *)
Definition raw_rate_of (l : list FixedSampleRate) (id : Z) : option float :=
  samplerate <$> head (filter (fun e => sampleId e = id /\ downsampling e = 1) l).

(** [rate / downsampling], the division of a [double] by an [unsigned]. *)
Definition rate_over_factor (r : float) (factor : Z) : float :=
  (r / Double.of_unsigned factor)%float.

(** The line's own rate divided by its factor is an integer of the domain. *)
Definition recovers_raw_rate (l : list FixedSampleRate) (e : FixedSampleRate) : bool :=
  let q := rate_over_factor (samplerate e) (downsampling e) in
  Double.is_integral q && in_domain l q.

(** The factor evenly divides the raw rate implied for the line's id, and
    that raw rate is in the domain. *)
Definition factor_divides_raw_rate (l : list FixedSampleRate) (e : FixedSampleRate) : bool :=
  match raw_rate_of l (sampleId e) with
  | Some r => in_domain l r && Double.is_integral (rate_over_factor r (downsampling e))
  | None => false
  end.

(** The lines of the list whose rate is above a declared maximum. *)
Definition above (limit : ControlSamplerateLimits) (l : list FixedSampleRate)
  : list FixedSampleRate :=
  filter (fun e => (max limit <? samplerate e)%float = true) l.

(** ** Command registration, [applyRequirements_] *)

(** The control commands created in [applyRequirements_]. *)
Inductive ControlCommand :=
| ControlSetGain_CH1
| ControlSetGain_CH2
| ControlSetSamplerate
| ControlStartSampling
| ControlSetNumChannels
| ControlSetCoupling
| ControlSetCalFreq.

(** The command code noted beside each [addCommand] call. *)
Definition code (c : ControlCommand) : Z :=
  match c with
  | ControlSetGain_CH1 => 0xE0
  | ControlSetGain_CH2 => 0xE1
  | ControlSetSamplerate => 0xE2
  | ControlStartSampling => 0xE3
  | ControlSetNumChannels => 0xE4
  | ControlSetCoupling => 0xE5
  | ControlSetCalFreq => 0xE6
  end.

Section ApplyRequirements.
(** [HantekDsoControl] and its [addCommand] are declared outside this file:
    the control object is a state of some type that every call updates. *)
Context {HantekDsoControl : Type}.
Context (addCommand : ControlCommand -> HantekDsoControl -> HantekDsoControl).

Definition applyRequirements_ (dsoControl : HantekDsoControl) : HantekDsoControl :=
  let dsoControl := addCommand ControlSetGain_CH1 dsoControl in
  let dsoControl := addCommand ControlSetGain_CH2 dsoControl in
  let dsoControl := addCommand ControlSetSamplerate dsoControl in
  let dsoControl := addCommand ControlStartSampling dsoControl in
  let dsoControl := addCommand ControlSetNumChannels dsoControl in
  let dsoControl := addCommand ControlSetCoupling dsoControl in
  let dsoControl := addCommand ControlSetCalFreq dsoControl in
  dsoControl.

End ApplyRequirements.

(** A control object that only records the [addCommand] calls it receives,
    oldest first. *)
Definition record_call (c : ControlCommand) (log : list ControlCommand) : list ControlCommand :=
  log ++ [c].

(** The sequence of [addCommand] calls made by [applyRequirements_]. *)
Definition addCommand_calls : list ControlCommand :=
  applyRequirements_ record_call [].

(** The configuration steps in the order gain, sample rate, channel count,
    coupling, calibration frequency, start. *)
Definition step (c : ControlCommand) : nat :=
  match c with
  | ControlSetGain_CH1 | ControlSetGain_CH2 => 0
  | ControlSetSamplerate => 1
  | ControlSetNumChannels => 2
  | ControlSetCoupling => 3
  | ControlSetCalFreq => 4
  | ControlStartSampling => 5
  end.

Definition step_le (a b : ControlCommand) : bool := (step a <=? step b)%nat.
Definition code_lt (a b : ControlCommand) : bool := code a <? code b.

Definition is_start (c : ControlCommand) : bool :=
  match c with ControlStartSampling => true | _ => false end.

(** ** [main]: device selection, construction of the chain, clean-up

    [main] is modelled by the calls it makes on the USB library, the device,
    the control object, the post-processing objects and the threads, in
    program order.  Tracing output ([qDebug], [std::cout]), translations,
    fonts and the choice of the OpenGL shader version touch none of these
    and are left out, except for the one tracing statement that calls the
    device. *)

(** What [main] uses of a [ScopeDevice]: whether it is the demo device, and
    the outcome of [connectDevice( errorMessage )] (result, message). *)
Record ScopeDevice := {
  isDemoDevice : bool;
  connectDevice : bool * string
}.

(** Everything [main] obtains from outside. *)
Record Environment := {
  demoModeOption : bool;                         (* p.isSet( demoModeOption ) *)
  intOption : bool;                              (* p.isSet( intOption ) *)
  libusb_init_result : Z;                        (* libusb_init( &context ) *)
  showSelectDeviceModal_result : option ScopeDevice;  (* None: nullptr *)
  ScopeDevice_new : ScopeDevice;                 (* new ScopeDevice() *)
  exec_result : Z;                               (* openHantekApplication.exec() *)
  getSamplesize : Z;                             (* dsoControl.getSamplesize(), unsigned *)
  getSamplerate : float;                         (* dsoControl.getSamplerate(), double *)
  verboseLevel : Z                               (* p.value( "verbose" ).toUInt(), else 0 *)
}.

Inductive Processor :=
| samplesToExportRaw | mathchannelGenerator | spectrumGenerator | graphGenerator.

Inductive Exporter := exporterCSV | exporterJSON.

Inductive Connection :=
| started_to_stateMachine
| communicationError_to_quit
| deviceDisconnected_to_quit
| samplesAvailable_to_input
| processingFinished_to_exportRegistry
| processingFinished_to_showNewData
| exporterProgressChanged_to_mainWindow
| exporterStatusChanged_to_mainWindow.

Inductive Call :=
| libusb_init
| showLibUSBFailedDialogModel (error : Z)
| libusb_setlocale
| showSelectDeviceModal
| libusb_exit
| scopeDevice_connectDevice
| qCritical (errorMessage : string)
| new_ScopeDevice
| scopeDevice_getModel
| scopeDevice_getSerialNumber
| new_HantekDsoControl
| dsoControl_moveToThread
| QObject_connect (c : Connection)
| new_DsoSettings
| new_ExporterRegistry
| new_ExporterProcessor
| registerExporter (e : Exporter)
| new_PostProcessing
| new_SpectrumGenerator
| new_MathChannelGenerator
| new_GraphGenerator
| registerProcessor (p : Processor)
| postProcessing_moveToThread
| new_MainWindow
| openHantekMainWindow_show
| dsoControl_enableSampling (on : bool)
| postProcessingThread_start
| dsoControlThread_start
| new_Capturing
| capturing_start
| openHantekApplication_exec
| dsoControl_quitSampling
| capturing_requestInterruption
| capturing_wait (ms : Z)
| dsoControlThread_quit
| dsoControlThread_wait (ms : Z)
| postProcessing_stop
| postProcessingThread_quit
| postProcessingThread_wait (ms : Z)
| scopeDevice_reset.

(** The variables [demoMode], [context] (is it non-null) and [scopeDevice]
    once a device has been found.  [scopeDevice] is never null there: the
    paths that leave it null return -1. *)
Record Session := {
  demoMode : bool;
  context : bool;
  scopeDevice : ScopeDevice
}.

Definition isEmpty (s : string) : bool :=
  match s with EmptyString => true | String _ _ => false end.

(** "Find matching usb devices": from [libusb_context *context = nullptr] to
    the end of the [if ( !demoMode )] statement.  The result is the calls
    made and either the value [main] returns at once or the session. *)
Definition find_device (env : Environment) : list Call * (Z + Session) :=
  if negb (demoModeOption env) then
    let error := libusb_init_result env in
    if negb (error =? 0) then
      ([libusb_init; showLibUSBFailedDialogModel error], inl (-1))
    else
      let calls :=
        [libusb_init]
          ++ (if negb (intOption env) then [libusb_setlocale] else [])
          ++ [showSelectDeviceModal] in
      match showSelectDeviceModal_result env with
      | Some device =>
          if isDemoDevice device then
            (calls ++ [libusb_exit],
             inr {| demoMode := true; context := false; scopeDevice := device |})
          else
            let (connected, errorMessage) := connectDevice device in
            if negb connected then
              (calls ++ [scopeDevice_connectDevice; libusb_exit]
                 ++ (if negb (isEmpty errorMessage) then [qCritical errorMessage] else []),
               inl (-1))
            else
              (calls ++ [scopeDevice_connectDevice],
               inr {| demoMode := false; context := true; scopeDevice := device |})
      | None => (calls ++ [libusb_exit], inl (-1))
      end
  else
    ([new_ScopeDevice],
     inr {| demoMode := true; context := false; scopeDevice := ScopeDevice_new env |}).

(** From "Here we have either a connected scope device or a demo device w/o
    hardware" to the GUI main loop: the control object, the settings, the
    exporters, the post-processing objects, the main window, the threads.
    With a verbose level other than 0 the tracing statement after
    [scopeDevice->getModel()] calls [getModel()] again and
    [getSerialNumber()] (operands in the order written). *)
Definition build_and_run (verboseLevel : Z) : list Call :=
  [ scopeDevice_getModel ]
  ++ (if verboseLevel =? 0 then []
      else [ scopeDevice_getModel; scopeDevice_getSerialNumber ])
  ++
  [ new_HantekDsoControl;
    dsoControl_moveToThread;
    QObject_connect started_to_stateMachine;
    QObject_connect communicationError_to_quit;
    QObject_connect deviceDisconnected_to_quit;
    new_DsoSettings;
    new_ExporterRegistry;
    new_ExporterProcessor;
    registerExporter exporterCSV;
    registerExporter exporterJSON;
    new_PostProcessing;
    new_SpectrumGenerator;
    new_MathChannelGenerator;
    new_GraphGenerator;
    registerProcessor samplesToExportRaw;
    registerProcessor mathchannelGenerator;
    registerProcessor spectrumGenerator;
    registerProcessor graphGenerator;
    postProcessing_moveToThread;
    QObject_connect samplesAvailable_to_input;
    QObject_connect processingFinished_to_exportRegistry;
    new_MainWindow;
    QObject_connect processingFinished_to_showNewData;
    QObject_connect exporterProgressChanged_to_mainWindow;
    QObject_connect exporterStatusChanged_to_mainWindow;
    openHantekMainWindow_show;
    dsoControl_enableSampling true;
    postProcessingThread_start;
    dsoControlThread_start;
    new_Capturing;
    capturing_start;
    openHantekApplication_exec ].

(** [qMax( a, b )] is [( a < b ) ? b : a]. *)
Definition qMax (a b : Z) : Z := if a <? b then b else a.

(** [unsigned( 2000 * dsoControl.getSamplesize() / dsoControl.getSamplerate() )]:
    the product is computed in [unsigned] (modulo 2^32), converted to
    [double], divided, and converted back to [unsigned]. *)
Definition record_wait (samplesize : Z) (samplerate : float) : option Z :=
  Double.to_unsigned
    (Double.of_unsigned ((2000 * samplesize) mod 2 ^ 32) / samplerate)%float.

(** The value of [waitForDso] after [waitForDso = qMax( waitForDso, 10000U )]. *)
Definition waitForDso (samplesize : Z) (samplerate : float) : option Z :=
  match record_wait samplesize samplerate with
  | Some ms => Some (qMax ms 10000)
  | None => None
  end.

(** "Application closed, clean up step by step", given the session and the
    value of [waitForDso]. *)
Definition clean_up (s : Session) (waitForDso : Z) : list Call :=
  [ dsoControl_quitSampling;
    capturing_requestInterruption;
    capturing_wait waitForDso;
    dsoControlThread_quit;
    dsoControlThread_wait waitForDso;
    postProcessing_stop;
    postProcessingThread_quit;
    postProcessingThread_wait 10000;
    scopeDevice_reset ]
    ++ (if context s then [libusb_exit] else []).

(** [main]: the calls made and the value returned; [None] when the
    conversion to [unsigned] in the clean-up is undefined. *)
Definition main (env : Environment) : option (list Call * Z) :=
  match find_device env with
  | (calls, inl status) => Some (calls, status)
  | (calls, inr s) =>
      match waitForDso (getSamplesize env) (getSamplerate env) with
      | Some ms =>
          Some (calls ++ build_and_run (verboseLevel env) ++ clean_up s ms, exec_result env)
      | None => None
      end
  end.

(** The calls of the clean-up that stop the acquisition side. *)
Definition stops_acquisition (c : Call) : bool :=
  match c with
  | dsoControl_quitSampling | capturing_requestInterruption | capturing_wait _
  | dsoControlThread_quit | dsoControlThread_wait _ => true
  | _ => false
  end.

(** The calls of the clean-up that stop the post processing. *)
Definition stops_processing (c : Call) : bool :=
  match c with
  | postProcessing_stop | postProcessingThread_quit | postProcessingThread_wait _ => true
  | _ => false
  end.

Definition is_libusb_init (c : Call) : bool :=
  match c with libusb_init => true | _ => false end.

Definition is_libusb_exit (c : Call) : bool :=
  match c with libusb_exit => true | _ => false end.

(** Sample environments. *)
Definition demo_device : ScopeDevice :=
  {| isDemoDevice := true; connectDevice := (false, EmptyString) |}.

Definition real_device : ScopeDevice :=
  {| isDemoDevice := false; connectDevice := (true, EmptyString) |}.

Definition env_demo_option : Environment :=
  {| demoModeOption := true; intOption := false; libusb_init_result := 0;
     showSelectDeviceModal_result := None; ScopeDevice_new := demo_device;
     exec_result := 0; getSamplesize := 20000; getSamplerate := 100e3;
     verboseLevel := 0 |}.

Definition env_demo_selected : Environment :=
  {| demoModeOption := false; intOption := false; libusb_init_result := 0;
     showSelectDeviceModal_result := Some demo_device; ScopeDevice_new := demo_device;
     exec_result := 0; getSamplesize := 20000; getSamplerate := 100e3;
     verboseLevel := 0 |}.

Definition env_real_slow : Environment :=
  {| demoModeOption := false; intOption := true; libusb_init_result := 0;
     showSelectDeviceModal_result := Some real_device; ScopeDevice_new := demo_device;
     exec_result := 0; getSamplesize := 20000; getSamplerate := 1e3;
     verboseLevel := 0 |}.

(** The calls of [main] in a sample environment. *)
Definition env_no_device : Environment :=
  {| demoModeOption := false; intOption := false; libusb_init_result := 0;
     showSelectDeviceModal_result := None; ScopeDevice_new := demo_device;
     exec_result := 0; getSamplesize := 20000; getSamplerate := 100e3;
     verboseLevel := 0 |}.

Definition env_libusb_fails : Environment :=
  {| demoModeOption := false; intOption := false; libusb_init_result := -99;
     showSelectDeviceModal_result := None; ScopeDevice_new := demo_device;
     exec_result := 0; getSamplesize := 20000; getSamplerate := 100e3;
     verboseLevel := 0 |}.

Definition env_demo_verbose : Environment :=
  {| demoModeOption := true; intOption := false; libusb_init_result := 0;
     showSelectDeviceModal_result := None; ScopeDevice_new := demo_device;
     exec_result := 7; getSamplesize := 20000; getSamplerate := 100e3;
     verboseLevel := 2 |}.

(** [main] from its start to the return of the GUI main loop: the calls
    made, and either the value returned at start-up or the session. *)
Definition until_exec (env : Environment) : list Call * (Z + Session) :=
  match find_device env with
  | (calls, inl status) => (calls, inl status)
  | (calls, inr s) => (calls ++ build_and_run (verboseLevel env), inr s)
  end.

Definition calls_of (env : Environment) : list Call :=
  match main env with
  | Some (calls, _) => calls
  | None => []
  end.

Definition calls_real_slow : list Call := Eval vm_compute in calls_of env_real_slow.

(** In a list of calls, no call of the second kind is followed by, or is
    itself, a call of the first kind. *)
Fixpoint all_before (first second : Call -> bool) (l : list Call) : bool :=
  match l with
  | [] => true
  | c :: t =>
      (if second c then negb (first c) && forallb (fun x => negb (first x)) t else true)
      && all_before first second t
  end.

(** ** [main]: settings taken from the command line

    The parser and the settings store are Qt's; what [main] does with their
    answers is modelled here. *)

(** [qMin( a, b )] is [( a < b ) ? a : b]; [qBound( min, val, max )] is
    [qMax( min, qMin( max, val ) )]. *)
Definition qMin (a b : Z) : Z := if a <? b then a else b.

Definition qBound (lo val hi : Z) : Z := qMax lo (qMin hi val).

(** [condensed]: [defaultCondensed] (defined in viewsettings.h) unless the
    option is set, [condensedOption] being [p.value( "condensed" ).toInt()]
    when it is. *)
Definition condensed_setting (defaultCondensed : Z) (condensedOption : option Z) : Z :=
  match condensedOption with
  | Some value => qBound 50 value 200
  | None => defaultCondensed
  end.

Section FontSize.
(** The conversion [Dso::InterpolationMode( int )] and back to [int]; the
    enumeration is declared outside this file. *)
Context (InterpolationMode : Z -> Z).


End FontSize.

(** The shader language versions [GLSL120], [GLSL150], [GLES100]. *)
Inductive GLSL := GLSL120 | GLSL150 | GLES100.

(** [QRegularExpression( pattern ).match( s ).hasMatch()] for a pattern
    without special characters: [pattern] occurs in [s]. *)
Fixpoint hasMatch (pattern s : string) : bool :=
  String.prefix pattern s
  || match s with
     | EmptyString => false
     | String _ rest => hasMatch pattern rest
     end.

(** The choice of [GLSLversion]: the platform default (the [#if] on
    [Q_OS_MAC], [#elif] on [Q_PROCESSOR_ARM]), then the driver's version
    string, then the command line. *)
Definition GLSLversion (Q_OS_MAC Q_PROCESSOR_ARM : bool) (openGLversion : string)
    (useGLES useGLSL120 useGLSL150 : bool) : GLSL :=
  let version := GLSL120 in
  let version :=
    if Q_OS_MAC then GLSL150 else if Q_PROCESSOR_ARM then GLES100 else version in
  let version :=
    if hasMatch "OpenGL ES " openGLversion then GLES100 else version in
  if useGLES then GLES100
  else if useGLSL120 then GLSL120
  else if useGLSL150 then GLSL150
  else version.

(** ** [main]: the clean-up with what it prints *)

(** A step of the clean-up: a call, or text sent to [std::cout]. *)
Inductive Step :=
| call (c : Call)
| cout (text : string).

Definition newline : string := String (Ascii.ascii_of_nat 10) EmptyString.

Section CleanUpSteps.
(** How [std::cout] prints an integer. *)
Context (show : Z -> string).

(** The clean-up, statement by statement; [elapsed] is
    [openHantekMainWindow.elapsedTime.elapsed()], in milliseconds. *)
Definition clean_up_steps (verboseLevel : Z) (s : Session) (waitForDso elapsed : Z)
  : list Step :=
  (if verboseLevel <? 3 then [ cout "OpenHantek6022 " ] else [])
    ++ [ call dsoControl_quitSampling;
         call capturing_requestInterruption;
         call (capturing_wait waitForDso) ]
    ++ (if verboseLevel <? 3 then [ cout "has " ] else [])
    ++ [ call dsoControlThread_quit;
         call (dsoControlThread_wait waitForDso) ]
    ++ (if verboseLevel <? 3 then [ cout "stopped " ] else [])
    ++ [ call postProcessing_stop;
         call postProcessingThread_quit;
         call (postProcessingThread_wait 10000) ]
    ++ (if verboseLevel <? 3 then [ cout "after " ] else [])
    ++ [ call scopeDevice_reset ]
    ++ (if context s then [ call libusb_exit ] else [])
    ++ (if verboseLevel <? 3
        then [ cout (show (elapsed `quot` 1000)); cout (" s" ++ newline) ]
        else [ cout "OpenHantek6022 has stopped after ";
               cout (show (elapsed `quot` 1000)); cout (" s" ++ newline) ]).

End CleanUpSteps.

(** The calls among the steps, and the text printed by them. *)
Definition calls_in (steps : list Step) : list Call :=
  omap (fun st => match st with call c => Some c | cout _ => None end) steps.

Definition printed (steps : list Step) : string :=
  foldr (fun st rest => match st with call _ => rest | cout text => (text ++ rest)%string end)
    EmptyString steps.

(** ** Kinds of calls *)

Definition is_connectDevice (c : Call) : bool :=
  match c with scopeDevice_connectDevice => true | _ => false end.

Definition is_libusb (c : Call) : bool := is_libusb_init c || is_libusb_exit c.

(** Calls on the scope device. *)
Definition uses_device (c : Call) : bool :=
  match c with
  | scopeDevice_connectDevice | scopeDevice_getModel | scopeDevice_getSerialNumber
  | scopeDevice_reset => true
  | _ => false
  end.

(** Calls that [main] makes only before a device has been found. *)
Definition before_device_found (c : Call) : bool :=
  match c with
  | libusb_init | showLibUSBFailedDialogModel _ | libusb_setlocale
  | showSelectDeviceModal | libusb_exit | scopeDevice_connectDevice
  | qCritical _ | new_ScopeDevice => true
  | _ => false
  end.

(** Whether the start-up gives up: libusb does not start, no device is
    selected, or the selected device is a real one that does not connect. *)
Definition start_up_fails (env : Environment) : bool :=
  negb (demoModeOption env)
  && (negb (libusb_init_result env =? 0)
      || match showSelectDeviceModal_result env with
         | None => true
         | Some device => negb (isDemoDevice device) && negb (fst (connectDevice device))
         end).

(** The three threads of the program. *)
Inductive Thread := postProcessingThread | dsoControlThread | capturingThread.

Definition started (c : Call) : option Thread :=
  match c with
  | postProcessingThread_start => Some postProcessingThread
  | dsoControlThread_start => Some dsoControlThread
  | capturing_start => Some capturingThread
  | _ => None
  end.

Definition waited_for (c : Call) : option Thread :=
  match c with
  | postProcessingThread_wait _ => Some postProcessingThread
  | dsoControlThread_wait _ => Some dsoControlThread
  | capturing_wait _ => Some capturingThread
  | _ => None
  end.

(** Calls that wire the objects together: signal connections, registration
    of exporters and processors, moving objects to their threads. *)
Definition wires (c : Call) : bool :=
  match c with
  | QObject_connect _ | registerExporter _ | registerProcessor _
  | dsoControl_moveToThread | postProcessing_moveToThread => true
  | _ => false
  end.

Definition starts_thread (c : Call) : bool :=
  match started c with Some _ => true | None => false end.

Definition is_exec (c : Call) : bool :=
  match c with openHantekApplication_exec => true | _ => false end.

(** Calls of the clean-up. *)
Definition cleans_up (c : Call) : bool :=
  stops_acquisition c || stops_processing c
  || match c with scopeDevice_reset => true | _ => false end.

(** ** More on the table *)

(** The line's rate times its factor is the raw rate implied for its id. *)
Definition downsampled_from_raw_rate (l : list FixedSampleRate) (e : FixedSampleRate) : bool :=
  match raw_rate_of l (sampleId e) with
  | Some r => (samplerate e * Double.of_unsigned (downsampling e) =? r)%float
  | None => false
  end.

Definition rate_differs (a b : FixedSampleRate) : bool :=
  negb (samplerate a =? samplerate b)%float.

Definition sampleId_differs (a b : FixedSampleRate) : bool :=
  negb (sampleId a =? sampleId b).

(** * Theorems *)

(** ** Lists in order *)

Section AscendingFacts.
Context {A : Type} (le : A -> A -> bool).

Lemma forallb_lookup (f : A -> bool) (l : list A) :
  forallb f l = true <-> (forall (j : nat) (b : A), l !! j = Some b -> f b = true).
Proof.
  induction l as [|x t IH]; simpl.
  - split; [intros _ j b Hj; discriminate | reflexivity].
  - rewrite andb_true_iff, IH. split.
    + intros [Hx Ht] [|j] b Hj; simpl in Hj; [congruence | eauto].
    + intros H. split; [apply (H 0%nat); reflexivity |].
      intros j b Hj. apply (H (S j)). exact Hj.
Qed.

Lemma ascendingb_spec (l : list A) : ascendingb le l = true <-> ascending le l.
Proof.
  induction l as [|x t IH]; simpl.
  - split; [intros _ i j a b _ Hi; discriminate | reflexivity].
  - rewrite andb_true_iff, IH, forallb_lookup. split.
    + intros [Hx Ht] i j a b Hij Hi Hj.
      destruct j as [|j]; [lia|]. destruct i as [|i]; simpl in *.
      * injection Hi as <-. eauto.
      * apply (Ht i j); [lia | assumption | assumption].
    + intros H. split.
      * intros j b Hj. apply (H 0%nat (S j)); [lia | reflexivity | exact Hj].
      * intros i j a b Hij Hi Hj. apply (H (S i) (S j)); [lia | exact Hi | exact Hj].
Qed.

Lemma not_ascending (l : list A) : ascendingb le l = false -> ~ ascending le l.
Proof. intros Hb Hasc. apply ascendingb_spec in Hasc. congruence. Qed.

End AscendingFacts.

Lemma all_before_spec (first second : Call -> bool) (l : list Call) :
  all_before first second l = true ->
  forall (i j : nat) (a b : Call),
    l !! i = Some a -> l !! j = Some b ->
    first a = true -> second b = true -> (i < j)%nat.
Proof.
  induction l as [|c t IH]; simpl; intros Hl i j a b Hi Hj Ha Hb.
  - discriminate.
  - apply andb_true_iff in Hl as [Hc Ht].
    destruct i as [|i], j as [|j]; simpl in Hi, Hj.
    + injection Hi as <-. injection Hj as <-.
      rewrite Hb in Hc. apply andb_true_iff in Hc as [Hc _].
      rewrite Ha in Hc. discriminate.
    + lia.
    + injection Hj as <-. rewrite Hb in Hc.
      apply andb_true_iff in Hc as [_ Hc].
      rewrite forallb_lookup in Hc. specialize (Hc i a Hi).
      rewrite Ha in Hc. discriminate.
    + specialize (IH Ht i j a b Hi Hj Ha Hb). lia.
Qed.

(** ** The ISDS205B table *)

(** What [initSpecifications] writes does not depend on the specification it
    is given, the per-channel scale vector apart. *)
Lemma fixedSampleRates_fixed (fresh : ControlSpecification) :
  fixedSampleRates (specification (ModelISDS205B fresh))
  = fixedSampleRates (initSpecifications (blank 2)).
Proof. reflexivity. Qed.

(** C1, as stated, fails: the model is constructed, and the list it holds is
    not in ascending order of rate (7 MS/s stands before 4 MS/s). *)
Lemma fixedSampleRates_not_ascending :
  ~ ascending rate_le (fixedSampleRates (specification (ModelISDS205B (blank 2)))).
Proof.
  intros H.
  specialize (H 5%nat 6%nat (FixedRate 7e6 24 3) (FixedRate 4e6 4 1)).
  assert (Hle : rate_le (FixedRate 7e6 24 3) (FixedRate 4e6 4 1) = true).
  { apply H; [lia | reflexivity | reflexivity]. }
  vm_compute in Hle. discriminate.
Qed.

(** C1, amended: whatever fresh specification the constructor starts from,
    it returns a model whose list has its twelve lines, no order check being
    made; with the line at position 5 (7 MS/s, id 24, factor 3) set aside the
    lines are in ascending order of rate. *)
Theorem fixedSampleRates_ascending_apart_from_one (fresh : ControlSpecification) :
  let rates := fixedSampleRates (specification (ModelISDS205B fresh)) in
  length rates = 12%nat /\ ascending rate_le (delete 5%nat rates).
Proof.
  intros rates. subst rates. rewrite fixedSampleRates_fixed. split.
  - reflexivity.
  - apply ascendingb_spec. vm_compute. reflexivity.
Qed.

(** The amended C1 at the lines for 2 MS/s and 4 MS/s, which become
    neighbours once the line between them is set aside. *)
Lemma fixedSampleRates_ascending_apart_from_one_witness :
  (4 < 5)%nat
  /\ delete 5%nat (fixedSampleRates (specification (ModelISDS205B (blank 2)))) !! 4%nat
     = Some (FixedRate 2e6 8 4)
  /\ delete 5%nat (fixedSampleRates (specification (ModelISDS205B (blank 2)))) !! 5%nat
     = Some (FixedRate 4e6 4 1)
  /\ rate_le (FixedRate 2e6 8 4) (FixedRate 4e6 4 1) = true.
Proof.
  split; [lia |]. split; [reflexivity |]. split; [reflexivity |].
  exact (proj2 (fixedSampleRates_ascending_apart_from_one (blank 2)) 4%nat 5%nat
           (FixedRate 2e6 8 4) (FixedRate 4e6 4 1) ltac:(lia) eq_refl eq_refl).
Defined.

(** C2, as stated, fails: for the line (7 MS/s, id 24, factor 3) the rate
    divided by the factor is 2333333.33..., not an integer. *)
Lemma rate_over_factor_not_integral :
  ~ (forall (i : nat) (e : FixedSampleRate),
       fixedSampleRates (initSpecifications (blank 2)) !! i = Some e ->
       recovers_raw_rate (fixedSampleRates (initSpecifications (blank 2))) e = true).
Proof.
  intros H. specialize (H 5%nat (FixedRate 7e6 24 3) eq_refl).
  vm_compute in H. discriminate.
Qed.

(** C2, amended: for every line, the raw rate the table implies for the
    line's sample id is in the raw-rate domain and the line's downsampling
    factor divides it evenly; for every line other than the one at position
    5, the line's rate divided by its factor is an integer of the domain. *)
Theorem downsampling_divides_raw_rate (fresh : ControlSpecification) :
  let rates := fixedSampleRates (initSpecifications fresh) in
  (forall (i : nat) (e : FixedSampleRate),
     rates !! i = Some e -> factor_divides_raw_rate rates e = true)
  /\ (forall (i : nat) (e : FixedSampleRate),
        delete 5%nat rates !! i = Some e -> recovers_raw_rate rates e = true).
Proof.
  intros rates. subst rates. split.
  - apply forallb_lookup. vm_compute. reflexivity.
  - apply forallb_lookup. vm_compute. reflexivity.
Qed.

(** The amended C2 at the line (7 MS/s, id 24, factor 3): 24 MS/s / 3. *)
Lemma downsampling_divides_raw_rate_witness :
  fixedSampleRates (initSpecifications (blank 2)) !! 5%nat = Some (FixedRate 7e6 24 3)
  /\ factor_divides_raw_rate (fixedSampleRates (initSpecifications (blank 2)))
       (FixedRate 7e6 24 3) = true.
Proof.
  split; [reflexivity |].
  exact (proj1 (downsampling_divides_raw_rate (blank 2)) 5%nat (FixedRate 7e6 24 3) eq_refl).
Defined.

(** C4: for a specification created for two channels, after
    [initSpecifications] the gain table has 8 entries and each of the two
    channels has a voltage-scale table of the same length. *)
Theorem gain_and_voltageScale_lengths (fresh : ControlSpecification) :
  length (voltageScale fresh) = 2%nat ->
  let spec := specification (ModelISDS205B fresh) in
  length (gain spec) = 8%nat
  /\ length (voltageScale spec) = 2%nat
  /\ (forall (ch : nat) (scale : list float),
        voltageScale spec !! ch = Some scale -> length scale = length (gain spec)).
Proof.
  intros Hlen spec. subst spec. simpl.
  destruct (voltageScale fresh) as [|v0 [|v1 [|v2 rest]]]; simpl in Hlen; try discriminate.
  repeat split.
  intros ch scale Hch.
  destruct ch as [|[|ch]]; simpl in Hch; try discriminate;
    injection Hch as <-; reflexivity.
Qed.

(** C4 at the blank two-channel specification. *)
Lemma gain_and_voltageScale_lengths_witness :
  length (voltageScale (blank 2)) = 2%nat
  /\ length (gain (specification (ModelISDS205B (blank 2)))) = 8%nat
  /\ length (voltageScale (specification (ModelISDS205B (blank 2)))) = 2%nat
  /\ (forall (ch : nat) (scale : list float),
        voltageScale (specification (ModelISDS205B (blank 2))) !! ch = Some scale ->
        length scale = length (gain (specification (ModelISDS205B (blank 2))))).
Proof.
  split; [reflexivity |].
  exact (gain_and_voltageScale_lengths (blank 2) eq_refl).
Defined.

(** C8: in the gain table, an entry at a lower position never has a larger
    V/div than an entry at a higher position. *)
Theorem gain_ascending_by_Vdiv (fresh : ControlSpecification) :
  forall (i j : nat) (a b : ControlSpecificationGainLevel),
    (i < j)%nat ->
    gain (initSpecifications fresh) !! i = Some a ->
    gain (initSpecifications fresh) !! j = Some b ->
    (Vdiv a <=? Vdiv b)%float = true.
Proof.
  change (ascending Vdiv_le (gain (initSpecifications fresh))).
  apply ascendingb_spec. vm_compute. reflexivity.
Qed.

(** C8 at the entries for 100 mV/div and 200 mV/div. *)
Lemma gain_ascending_by_Vdiv_witness :
  (2 < 3)%nat
  /\ gain (initSpecifications (blank 2)) !! 2%nat = Some (GainLevel 10 100e-3)
  /\ gain (initSpecifications (blank 2)) !! 3%nat = Some (GainLevel 5 200e-3)
  /\ (100e-3 <=? 200e-3)%float = true.
Proof.
  split; [lia |]. split; [reflexivity |]. split; [reflexivity |].
  exact (gain_ascending_by_Vdiv (blank 2) 2%nat 3%nat
           (GainLevel 10 100e-3) (GainLevel 5 200e-3) ltac:(lia) eq_refl eq_refl).
Defined.

(** C10: the list is not bounded by the declared maxima.  The lines for
    24, 30 and 48 MS/s are above the multi-channel maximum of 15 MS/s (so is
    the line for 16 MS/s), and exactly one line, 48 MS/s, is above the
    single-channel maximum of 30 MS/s. *)
Theorem fixedSampleRates_above_declared_max (fresh : ControlSpecification) :
  let spec := initSpecifications fresh in
  max (multi (specSamplerate spec)) = 15e6%float
  /\ max (single (specSamplerate spec)) = 30e6%float
  /\ above (multi (specSamplerate spec)) (fixedSampleRates spec)
     = [ FixedRate 16e6 16 1; FixedRate 24e6 24 1; FixedRate 30e6 30 1; FixedRate 48e6 48 1 ]
  /\ above (single (specSamplerate spec)) (fixedSampleRates spec)
     = [ FixedRate 48e6 48 1 ].
Proof.
  intros spec. subst spec. repeat split; vm_compute; reflexivity.
Qed.

(** ** Command registration *)

(** Whatever [addCommand] does to the control object, [applyRequirements_]
    applies it to the recorded commands, first to last. *)
Lemma applyRequirements_calls {T : Type} (addCommand : ControlCommand -> T -> T) (d : T) :
  applyRequirements_ addCommand d = foldl (fun d c => addCommand c d) d addCommand_calls.
Proof. reflexivity. Qed.

(** C3, as stated, fails: the [addCommand] calls do not follow the order
    gain, sample rate, channel count, coupling, calibration frequency,
    start, and start is not the last one. *)
Lemma addCommand_calls_not_in_stated_order :
  ~ ascending step_le addCommand_calls
  /\ last addCommand_calls <> Some ControlStartSampling.
Proof.
  split.
  - apply not_ascending. reflexivity.
  - vm_compute. discriminate.
Qed.

(** C3, amended: the [addCommand] calls of [applyRequirements_] are made in
    ascending command code, 0xE0 to 0xE6: gain (CH1, CH2), sample rate,
    start, channel count, coupling, calibration frequency.  The commands
    other than start follow the stated order, and start is registered
    between sample rate and channel count. *)
Theorem addCommand_calls_in_code_order :
  (forall (T : Type) (addCommand : ControlCommand -> T -> T) (d : T),
     applyRequirements_ addCommand d = foldl (fun d c => addCommand c d) d addCommand_calls)
  /\ code <$> addCommand_calls = [ 0xE0; 0xE1; 0xE2; 0xE3; 0xE4; 0xE5; 0xE6 ]
  /\ ascending code_lt addCommand_calls
  /\ ascending step_le (filter (fun c => is_start c = false) addCommand_calls)
  /\ (exists before after,
        addCommand_calls
        = before ++ [ ControlSetSamplerate; ControlStartSampling; ControlSetNumChannels ] ++ after).
Proof.
  split; [intros; apply applyRequirements_calls |].
  split; [reflexivity |].
  split; [apply ascendingb_spec; reflexivity |].
  split; [apply ascendingb_spec; reflexivity |].
  exists [ ControlSetGain_CH1; ControlSetGain_CH2 ], [ ControlSetCoupling; ControlSetCalFreq ].
  reflexivity.
Qed.

(** ** [main] *)

(** Splits [find_device] into its paths. *)
Ltac find_device_paths env :=
  destruct env as [demo_opt int_opt init_res selected fresh_dev exec_res ssize srate verbose];
  unfold main, find_device, build_and_run in *; simpl in *;
  destruct (verbose =? 0); simpl in *;
  (destruct demo_opt; simpl in *;
   [ | destruct (init_res =? 0) eqn:Hinit; simpl in *;
       [ destruct int_opt; simpl in *;
         (destruct selected as [[is_demo [connected msg]]|]; simpl in *;
          [ destruct is_demo; simpl in *;
            [ | destruct connected; simpl in *; [ | destruct (isEmpty msg); simpl in * ] ]
          | ])
       | ] ]).

(** Once a device has been found, [main] goes on to build the chain, runs
    the GUI loop and cleans up; it returns what the GUI loop returned. *)
Lemma main_after_find_device (env : Environment) (pre : list Call) (s : Session) :
  find_device env = (pre, inr s) ->
  main env =
    match waitForDso (getSamplesize env) (getSamplerate env) with
    | Some ms =>
        Some (pre ++ build_and_run (verboseLevel env) ++ clean_up s ms, exec_result env)
    | None => None
    end.
Proof. intros H. unfold main. rewrite H. reflexivity. Qed.

(** [main] returns unless the conversion of the wait to [unsigned] is
    undefined. *)
Lemma main_returns (env : Environment) (ms : Z) :
  record_wait (getSamplesize env) (getSamplerate env) = Some ms ->
  exists calls status, main env = Some (calls, status).
Proof.
  intros H. unfold main, waitForDso. rewrite H.
  destruct (find_device env) as [calls [status|s]]; eauto.
Qed.

Lemma qMax_max (a b : Z) : qMax a b = Z.max a b.
Proof. unfold qMax. destruct (Z.ltb_spec a b); lia. Qed.

(** While the product stays below 2^32 it is the exact product. *)
Lemma record_wait_no_wrap (samplesize : Z) (samplerate : float) :
  0 <= samplesize -> 2000 * samplesize < 2 ^ 32 ->
  record_wait samplesize samplerate
  = Double.to_unsigned (Double.of_unsigned (2000 * samplesize) / samplerate)%float.
Proof. intros H0 H1. unfold record_wait. rewrite Z.mod_small by lia. reflexivity. Qed.

Example record_wait_200ms : record_wait 20000 100e3 = Some 400.
Proof. reflexivity. Qed.

Example record_wait_20s : record_wait 20000 1e3 = Some 40000.
Proof. reflexivity. Qed.

Example waitForDso_floor : waitForDso 20000 100e3 = Some 10000.
Proof. reflexivity. Qed.

Example waitForDso_long_record : waitForDso 20000 1e3 = Some 40000.
Proof. reflexivity. Qed.

(** A sample rate of zero makes the quotient infinite: no value. *)
Example record_wait_rate_zero : record_wait 20000 0 = None.
Proof. reflexivity. Qed.

(** The 32-bit product wraps: 3000000 samples at 100 kS/s are a record of
    30 s, and the converted wait is 17050 ms. *)
Example record_wait_wraps : record_wait 3000000 100e3 = Some 17050.
Proof. reflexivity. Qed.

(** C5: when [main] reaches the clean-up and the product
    [2000 * samplesize] fits the 32-bit type, the capturing thread and the
    dso control thread are both waited for with the same timeout [ms]: the
    larger of 10000 and [unsigned( 2000 * samplesize / samplerate )], twice
    the record time in milliseconds.  These two waits are the only ones on
    the acquisition side. *)
Theorem acquisition_wait_bounded (env : Environment) (pre : list Call) (s : Session)
    (calls : list Call) (status : Z) :
  find_device env = (pre, inr s) ->
  main env = Some (calls, status) ->
  0 <= getSamplesize env ->
  2000 * getSamplesize env < 2 ^ 32 ->
  exists record ms : Z,
    Double.to_unsigned
      (Double.of_unsigned (2000 * getSamplesize env) / getSamplerate env)%float
    = Some record
    /\ ms = Z.max record 10000
    /\ 10000 <= ms
    /\ filter (fun c => stops_acquisition c = true) calls
       = [ dsoControl_quitSampling; capturing_requestInterruption; capturing_wait ms;
           dsoControlThread_quit; dsoControlThread_wait ms ].
Proof.
  intros Hfind Hmain Hpos Hfits.
  rewrite (main_after_find_device _ _ _ Hfind) in Hmain.
  unfold waitForDso in Hmain. rewrite (record_wait_no_wrap _ _ Hpos Hfits) in Hmain.
  destruct (Double.to_unsigned
              (Double.of_unsigned (2000 * getSamplesize env) / getSamplerate env)%float)
    as [record|]; [| discriminate].
  injection Hmain as <- _.
  exists record, (Z.max record 10000). rewrite qMax_max.
  split; [reflexivity |]. split; [reflexivity |]. split; [lia |].
  clear Hpos Hfits.
  find_device_paths env; try discriminate; injection Hfind as <- <-; reflexivity.
Qed.

(** C5 for a connected device recording 20000 samples at 1 kS/s: 40 s. *)
Lemma acquisition_wait_bounded_witness :
  find_device env_real_slow
  = ([ libusb_init; showSelectDeviceModal; scopeDevice_connectDevice ],
     inr {| demoMode := false; context := true; scopeDevice := real_device |})
  /\ main env_real_slow = Some (calls_real_slow, 0)
  /\ 0 <= getSamplesize env_real_slow
  /\ 2000 * getSamplesize env_real_slow < 2 ^ 32
  /\ exists record ms : Z,
       Double.to_unsigned (Double.of_unsigned (2000 * 20000) / 1e3)%float = Some record
       /\ ms = Z.max record 10000
       /\ 10000 <= ms
       /\ filter (fun c => stops_acquisition c = true) calls_real_slow
          = [ dsoControl_quitSampling; capturing_requestInterruption; capturing_wait ms;
              dsoControlThread_quit; dsoControlThread_wait ms ].
Proof.
  split; [reflexivity |]. split; [reflexivity |].
  split; [simpl; lia |]. split; [simpl; lia |].
  exact (acquisition_wait_bounded env_real_slow _ _ calls_real_slow 0 eq_refl eq_refl
           ltac:(simpl; lia) ltac:(simpl; lia)).
Defined.

(** C6: in every run of [main] that returns, each call that stops the
    acquisition side ([quitSampling], the capturing thread's interruption and
    wait, the dso control thread's quit and wait) is made before each call
    that stops the post processing ([postProcessing.stop()], the thread's
    quit and wait); when a device was found all of them are made. *)
Theorem acquisition_stops_before_processing (env : Environment)
    (calls : list Call) (status : Z) :
  main env = Some (calls, status) ->
  (forall (i j : nat) (a p : Call),
     calls !! i = Some a -> calls !! j = Some p ->
     stops_acquisition a = true -> stops_processing p = true -> (i < j)%nat)
  /\ (forall pre s, find_device env = (pre, inr s) ->
      exists ms,
        filter (fun c => stops_acquisition c = true \/ stops_processing c = true) calls
        = [ dsoControl_quitSampling; capturing_requestInterruption; capturing_wait ms;
            dsoControlThread_quit; dsoControlThread_wait ms;
            postProcessing_stop; postProcessingThread_quit; postProcessingThread_wait 10000 ]).
Proof.
  intros Hmain. split.
  - apply all_before_spec.
    find_device_paths env;
      try (destruct (waitForDso ssize srate) as [ms|]; [| discriminate]);
      injection Hmain as <- _; reflexivity.
  - intros pre s Hfind.
    find_device_paths env; try discriminate;
      (destruct (waitForDso ssize srate) as [ms|]; [| discriminate]);
      injection Hmain as <- _; exists ms; reflexivity.
Qed.

(** C6 at the last acquisition call and the first post-processing call. *)
Lemma acquisition_stops_before_processing_witness :
  main env_real_slow = Some (calls_real_slow, 0)
  /\ calls_real_slow !! 40%nat = Some (dsoControlThread_wait 40000)
  /\ calls_real_slow !! 41%nat = Some postProcessing_stop
  /\ stops_acquisition (dsoControlThread_wait 40000) = true
  /\ stops_processing postProcessing_stop = true
  /\ (40 < 41)%nat.
Proof.
  split; [reflexivity |]. split; [reflexivity |]. split; [reflexivity |].
  split; [reflexivity |]. split; [reflexivity |].
  exact (proj1 (acquisition_stops_before_processing env_real_slow calls_real_slow 0 eq_refl)
           40%nat 41%nat (dsoControlThread_wait 40000) postProcessing_stop
           eq_refl eq_refl eq_refl eq_refl).
Defined.

(** C7: when the demo option is set, or when it is not set, libusb starts
    and the device selection returns a demo device, [main] does not take
    an early return: it continues in demo mode with the substitute device
    ([new ScopeDevice()] in the first case, the selected demo device in the
    second) and, up to the GUI main loop, makes every call that builds the
    chain: the control object and its connections, the settings, the
    exporters, the post-processing object with its four processors, the
    main window, the three threads.  Whenever the wait of the clean-up has a
    value, [main] returns what the GUI loop returned. *)
Theorem demo_mode_builds_chain (env : Environment) :
  demoModeOption env = true
  \/ (demoModeOption env = false /\ libusb_init_result env = 0
      /\ exists device, showSelectDeviceModal_result env = Some device
                        /\ isDemoDevice device = true) ->
  exists (pre chain : list Call) (s : Session),
    find_device env = (pre, inr s)
    /\ demoMode s = true
    /\ (demoModeOption env = true -> scopeDevice s = ScopeDevice_new env)
    /\ (demoModeOption env = false -> showSelectDeviceModal_result env = Some (scopeDevice s))
    /\ until_exec env = (pre ++ chain, inr s)
    /\ filter (fun c => uses_device c = false) chain
       = [ new_HantekDsoControl;
           dsoControl_moveToThread;
           QObject_connect started_to_stateMachine;
           QObject_connect communicationError_to_quit;
           QObject_connect deviceDisconnected_to_quit;
           new_DsoSettings;
           new_ExporterRegistry;
           new_ExporterProcessor;
           registerExporter exporterCSV;
           registerExporter exporterJSON;
           new_PostProcessing;
           new_SpectrumGenerator;
           new_MathChannelGenerator;
           new_GraphGenerator;
           registerProcessor samplesToExportRaw;
           registerProcessor mathchannelGenerator;
           registerProcessor spectrumGenerator;
           registerProcessor graphGenerator;
           postProcessing_moveToThread;
           QObject_connect samplesAvailable_to_input;
           QObject_connect processingFinished_to_exportRegistry;
           new_MainWindow;
           QObject_connect processingFinished_to_showNewData;
           QObject_connect exporterProgressChanged_to_mainWindow;
           QObject_connect exporterStatusChanged_to_mainWindow;
           openHantekMainWindow_show;
           dsoControl_enableSampling true;
           postProcessingThread_start;
           dsoControlThread_start;
           new_Capturing;
           capturing_start;
           openHantekApplication_exec ]
    /\ (forall record : Z,
          record_wait (getSamplesize env) (getSamplerate env) = Some record ->
          main env
          = Some (pre ++ chain ++ clean_up s (Z.max record 10000), exec_result env)).
Proof.
  intros Hdemo.
  assert (Hfind : exists pre s,
            find_device env = (pre, inr s) /\ demoMode s = true
            /\ (demoModeOption env = true -> scopeDevice s = ScopeDevice_new env)
            /\ (demoModeOption env = false
                -> showSelectDeviceModal_result env = Some (scopeDevice s))).
  { destruct Hdemo as [Hopt | (Hopt & Hinit & device & Hsel & Hdev)].
    - exists [ new_ScopeDevice ],
        {| demoMode := true; context := false; scopeDevice := ScopeDevice_new env |}.
      unfold find_device. rewrite Hopt. simpl.
      repeat split; first [reflexivity | discriminate | (intros _; reflexivity)].
    - exists ([ libusb_init ]
                ++ (if negb (intOption env) then [ libusb_setlocale ] else [])
                ++ [ showSelectDeviceModal ] ++ [ libusb_exit ]),
        {| demoMode := true; context := false; scopeDevice := device |}.
      unfold find_device. rewrite Hopt, Hinit, Hsel, Hdev. simpl.
      rewrite <- !app_assoc.
      repeat split; first [reflexivity | discriminate | (intros _; reflexivity)]. }
  destruct Hfind as (pre & s & Hfind & Hmode & Hnew & Hsel).
  exists pre, (build_and_run (verboseLevel env)), s.
  split; [exact Hfind |]. split; [exact Hmode |].
  split; [exact Hnew |]. split; [exact Hsel |].
  split; [unfold until_exec; rewrite Hfind; reflexivity |].
  split.
  - unfold build_and_run. destruct (verboseLevel env =? 0); reflexivity.
  - intros record Hrecord.
    rewrite (main_after_find_device _ _ _ Hfind). unfold waitForDso.
    rewrite Hrecord, qMax_max. reflexivity.
Qed.

(** C7 with the demo option and verbose level 2. *)
Lemma demo_mode_builds_chain_witness :
  (demoModeOption env_demo_verbose = true
   \/ (demoModeOption env_demo_verbose = false /\ libusb_init_result env_demo_verbose = 0
       /\ exists device, showSelectDeviceModal_result env_demo_verbose = Some device
                         /\ isDemoDevice device = true))
  /\ record_wait (getSamplesize env_demo_verbose) (getSamplerate env_demo_verbose) = Some 400
  /\ exists (pre chain : list Call) (s : Session),
       find_device env_demo_verbose = (pre, inr s)
       /\ demoMode s = true
       /\ until_exec env_demo_verbose = (pre ++ chain, inr s)
       /\ main env_demo_verbose = Some (pre ++ chain ++ clean_up s (Z.max 400 10000), 7).
Proof.
  assert (H : demoModeOption env_demo_verbose = true
              \/ (demoModeOption env_demo_verbose = false
                  /\ libusb_init_result env_demo_verbose = 0
                  /\ exists device, showSelectDeviceModal_result env_demo_verbose = Some device
                                    /\ isDemoDevice device = true)).
  { left. reflexivity. }
  split; [exact H |]. split; [reflexivity |].
  destruct (demo_mode_builds_chain env_demo_verbose H)
    as (pre & chain & s & Hfind & Hmode & _ & _ & Huntil & _ & Hmain).
  exists pre, chain, s.
  split; [exact Hfind |]. split; [exact Hmode |]. split; [exact Huntil |].
  exact (Hmain 400 eq_refl).
Defined.

(** C9: when [find_device] leaves [demoMode] set, the libusb context is
    null.  Either the demo option was given and libusb was never started, or
    libusb was started once and [libusb_exit] is the call right after the
    device selection.  From there to the end of [main] no libusb call is
    made; in particular the clean-up does not call [libusb_exit]. *)
Theorem demo_mode_leaves_no_libusb_context (env : Environment)
    (pre : list Call) (s : Session) :
  find_device env = (pre, inr s) ->
  demoMode s = true ->
  context s = false
  /\ ((demoModeOption env = true
       /\ filter (fun c => is_libusb_init c = true \/ is_libusb_exit c = true) pre = [])
      \/ (demoModeOption env = false
          /\ filter (fun c => is_libusb_init c = true \/ is_libusb_exit c = true) pre
             = [ libusb_init; libusb_exit ]
          /\ exists before, pre = before ++ [ showSelectDeviceModal; libusb_exit ]))
  /\ (forall ms : Z,
        filter (fun c => is_libusb_init c = true \/ is_libusb_exit c = true)
          (build_and_run (verboseLevel env) ++ clean_up s ms) = []).
Proof.
  intros Hfind Hdemo.
  find_device_paths env; try discriminate;
    injection Hfind as <- <-; simpl in Hdemo; try discriminate.
  all: split; [reflexivity |]; split; [| reflexivity].
  all: first
    [ left; split; reflexivity
    | right; split; [reflexivity |]; split; [reflexivity |];
      first [ exists [ libusb_init ]; reflexivity
            | exists [ libusb_init; libusb_setlocale ]; reflexivity ] ].
Qed.

(** C9 when the device selection returns the demo device. *)
Lemma demo_mode_leaves_no_libusb_context_witness :
  find_device env_demo_selected
  = ([ libusb_init; libusb_setlocale; showSelectDeviceModal; libusb_exit ],
     inr {| demoMode := true; context := false; scopeDevice := demo_device |})
  /\ demoMode {| demoMode := true; context := false; scopeDevice := demo_device |} = true
  /\ forall ms : Z,
       filter (fun c => is_libusb_init c = true \/ is_libusb_exit c = true)
         (build_and_run (verboseLevel env_demo_selected)
            ++ clean_up {| demoMode := true; context := false; scopeDevice := demo_device |} ms)
       = [].
Proof.
  split; [reflexivity |]. split; [reflexivity |].
  exact (proj2 (proj2 (demo_mode_leaves_no_libusb_context env_demo_selected _ _ eq_refl eq_refl))).
Defined.

(** Outside demo mode the context stays live and the clean-up ends with
    [libusb_exit]. *)
Lemma real_device_clean_up_exits_libusb (env : Environment) (pre : list Call) (s : Session) :
  find_device env = (pre, inr s) ->
  demoMode s = false ->
  context s = true /\ forall ms : Z, last (clean_up s ms) = Some libusb_exit.
Proof.
  intros Hfind Hdemo.
  find_device_paths env; try discriminate;
    injection Hfind as <- <-; simpl in Hdemo; try discriminate;
    split; reflexivity.
Qed.

(** * Further properties *)

(** ** [initSpecifications] *)

(** X1: on a specification with the two per-channel slots, running
    [initSpecifications] a second time changes nothing. *)
Theorem initSpecifications_idempotent (s : ControlSpecification) :
  (2 <= length (voltageScale s))%nat ->
  initSpecifications (initSpecifications s) = initSpecifications s.
Proof.
  intros Hslots. unfold initSpecifications; simpl. f_equal.
  destruct (voltageScale s) as [|v0 [|v1 rest]]; reflexivity.
Qed.

(** X1 at the blank two-channel specification. *)
Lemma initSpecifications_idempotent_witness :
  (2 <= length (voltageScale (blank 2)))%nat
  /\ initSpecifications (initSpecifications (blank 2)) = initSpecifications (blank 2).
Proof.
  split; [simpl; lia |].
  exact (initSpecifications_idempotent (blank 2) ltac:(simpl; lia)).
Defined.

(** X2: on a specification with at least the two per-channel slots,
    [initSpecifications] keeps the channel count and the number of
    per-channel scale tables, replaces the tables of channels 0 and 1
    whatever they held, and leaves the table of any further channel as it
    was. *)
Theorem initSpecifications_frame (s : ControlSpecification) :
  (2 <= length (voltageScale s))%nat ->
  channels (initSpecifications s) = channels s
  /\ length (voltageScale (initSpecifications s)) = length (voltageScale s)
  /\ (forall ch : nat,
        (ch < 2)%nat ->
        voltageScale (initSpecifications s) !! ch
        = Some [ 1276; 1276; 1276; 90; 37; 21.5; 21.5; 21.5 ]%float)
  /\ (forall ch : nat,
        (2 <= ch)%nat ->
        voltageScale (initSpecifications s) !! ch = voltageScale s !! ch).
Proof.
  intros Hslots. split; [reflexivity |]. simpl. split; [| split].
  - rewrite !length_insert. reflexivity.
  - intros ch Hch.
    destruct (voltageScale s) as [|v0 [|v1 rest]]; simpl in Hslots; try lia.
    destruct ch as [|[|ch]]; simpl; try lia; reflexivity.
  - intros ch Hch.
    rewrite !list_lookup_insert_ne by lia. reflexivity.
Qed.

(** X2 for a specification of three channels: the third table is kept. *)
Lemma initSpecifications_frame_witness :
  (2 <= length (voltageScale (blank 3)))%nat
  /\ (2 <= 2)%nat
  /\ voltageScale (initSpecifications (blank 3)) !! 2%nat = voltageScale (blank 3) !! 2%nat
  /\ (1 < 2)%nat
  /\ voltageScale (initSpecifications (blank 3)) !! 1%nat
     = Some [ 1276; 1276; 1276; 90; 37; 21.5; 21.5; 21.5 ]%float.
Proof.
  pose proof (initSpecifications_frame (blank 3) ltac:(simpl; lia)) as (_ & _ & H01 & H2).
  split; [simpl; lia |]. split; [lia |].
  split; [exact (H2 2%nat ltac:(lia)) |].
  split; [lia |].
  exact (H01 1%nat ltac:(lia)).
Defined.

(** X3: the scale constant depends on the hardware gain id alone: two gain
    steps with the same gain id have the same scale constant, in either
    channel. *)
Theorem voltageScale_by_gainID (fresh : ControlSpecification) :
  let spec := initSpecifications fresh in
  forall (ch1 ch2 i j : nat) (scale1 scale2 : list float)
         (g1 g2 : ControlSpecificationGainLevel) (v1 v2 : float),
    (ch1 < 2)%nat -> (ch2 < 2)%nat ->
    voltageScale spec !! ch1 = Some scale1 ->
    voltageScale spec !! ch2 = Some scale2 ->
    gain spec !! i = Some g1 -> gain spec !! j = Some g2 ->
    scale1 !! i = Some v1 -> scale2 !! j = Some v2 ->
    gainID g1 = gainID g2 ->
    v1 = v2.
Proof.
  intros spec ch1 ch2 i j scale1 scale2 g1 g2 v1 v2 Hc1 Hc2 Hs1 Hs2 Hg1 Hg2 Hv1 Hv2 Hid.
  subst spec. simpl in Hs1, Hs2, Hg1, Hg2.
  assert (Hscale : forall ch scale, (ch < 2)%nat ->
            <[ 1%nat := [ 1276; 1276; 1276; 90; 37; 21.5; 21.5; 21.5 ]%float ]>
              (<[ 0%nat := [ 1276; 1276; 1276; 90; 37; 21.5; 21.5; 21.5 ]%float ]>
                 (voltageScale fresh)) !! ch = Some scale ->
            scale = [ 1276; 1276; 1276; 90; 37; 21.5; 21.5; 21.5 ]%float).
  { intros ch scale Hch Hl.
    destruct (voltageScale fresh) as [|v0 [|v1' rest]];
      destruct ch as [|[|ch]]; simpl in Hl; try lia; congruence. }
  apply Hscale in Hs1; [| assumption]. apply Hscale in Hs2; [| assumption].
  subst scale1 scale2.
  destruct i as [|[|[|[|[|[|[|[|i]]]]]]]]; simpl in Hg1, Hv1; try discriminate;
    injection Hg1 as <-; injection Hv1 as <-;
    destruct j as [|[|[|[|[|[|[|[|j]]]]]]]]; simpl in Hg2, Hv2; try discriminate;
    injection Hg2 as <-; injection Hv2 as <-;
    simpl in Hid; first [reflexivity | discriminate].
Qed.

(** X3 at the steps 20 mV/div and 100 mV/div, both on gain id 10. *)
Lemma voltageScale_by_gainID_witness : (1276 = 1276)%float.
Proof.
  exact (voltageScale_by_gainID (blank 2) 0%nat 1%nat 0%nat 2%nat
           [ 1276; 1276; 1276; 90; 37; 21.5; 21.5; 21.5 ]%float
           [ 1276; 1276; 1276; 90; 37; 21.5; 21.5; 21.5 ]%float
           (GainLevel 10 20e-3) (GainLevel 10 100e-3) 1276%float 1276%float
           ltac:(lia) ltac:(lia) eq_refl eq_refl eq_refl eq_refl eq_refl eq_refl eq_refl).
Defined.

(** X4: the lines of [fixedSampleRates] have pairwise different rates, the
    lines that are not downsampled have pairwise different sample ids, and
    every line has a positive rate and a downsampling factor of at least 1. *)
Theorem fixedSampleRates_well_formed (fresh : ControlSpecification) :
  let rates := fixedSampleRates (initSpecifications fresh) in
  ascending rate_differs rates
  /\ ascending sampleId_differs (filter (fun e => downsampling e = 1) rates)
  /\ (forall (i : nat) (e : FixedSampleRate),
        rates !! i = Some e -> (0 <? samplerate e)%float = true /\ 1 <= downsampling e).
Proof.
  intros rates. subst rates. split; [| split].
  - apply ascendingb_spec. vm_compute. reflexivity.
  - apply ascendingb_spec. vm_compute. reflexivity.
  - intros i e Hi.
    assert (H : forallb (fun e => (0 <? samplerate e)%float && (1 <=? downsampling e))
                  (fixedSampleRates (initSpecifications fresh)) = true)
      by (vm_compute; reflexivity).
    rewrite forallb_lookup in H. specialize (H i e Hi).
    apply andb_true_iff in H as [H1 H2]. split; [exact H1 | lia].
Qed.

(** X4 at the two lines that use sample id 8. *)
Lemma fixedSampleRates_well_formed_witness :
  (4 < 7)%nat
  /\ fixedSampleRates (initSpecifications (blank 2)) !! 4%nat = Some (FixedRate 2e6 8 4)
  /\ fixedSampleRates (initSpecifications (blank 2)) !! 7%nat = Some (FixedRate 8e6 8 1)
  /\ rate_differs (FixedRate 2e6 8 4) (FixedRate 8e6 8 1) = true.
Proof.
  split; [lia |]. split; [reflexivity |]. split; [reflexivity |].
  exact (proj1 (fixedSampleRates_well_formed (blank 2)) 4%nat 7%nat
           (FixedRate 2e6 8 4) (FixedRate 8e6 8 1) ltac:(lia) eq_refl eq_refl).
Defined.

(** X5: a line's rate times its downsampling factor is the raw rate the
    table implies for the line's sample id, for every line but one: the
    line (7 MS/s, id 24, factor 3), where the product is 21 MS/s and the raw
    rate of id 24 is 24 MS/s. *)
Theorem downsampled_from_raw_rate_but_one (fresh : ControlSpecification) :
  let rates := fixedSampleRates (initSpecifications fresh) in
  filter (fun e => downsampled_from_raw_rate rates e = false) rates
  = [ FixedRate 7e6 24 3 ]
  /\ (7e6 * Double.of_unsigned 3)%float = 21e6%float
  /\ raw_rate_of rates 24 = Some 24e6%float.
Proof.
  intros rates. subst rates. repeat split; vm_compute; reflexivity.
Qed.

(** ** [main]: libusb, the device and early returns *)

(** Takes [main env = Some (calls, status)] apart on every path. *)
Ltac main_paths env Hmain :=
  find_device_paths env;
  try match type of Hmain with
      | context [waitForDso ?a ?b] =>
          destruct (waitForDso a b) as [ms|]; [| discriminate Hmain]
      end;
  injection Hmain as <- <-.

(** X6: in every run of [main] that returns, libusb is started at most
    once and shut down exactly when it was started with success: no libusb
    call with the demo option, [libusb_init] alone when it fails, and
    otherwise [libusb_init] followed, somewhere later, by one
    [libusb_exit]. *)
Theorem libusb_init_exit_balanced (env : Environment) (calls : list Call) (status : Z) :
  main env = Some (calls, status) ->
  filter (fun c => is_libusb c = true) calls
  = if demoModeOption env then []
    else if libusb_init_result env =? 0 then [ libusb_init; libusb_exit ]
         else [ libusb_init ].
Proof. intros Hmain. main_paths env Hmain; reflexivity. Qed.

(** X6 for a connected device. *)
Lemma libusb_init_exit_balanced_witness :
  main env_real_slow = Some (calls_real_slow, 0)
  /\ filter (fun c => is_libusb c = true) calls_real_slow = [ libusb_init; libusb_exit ].
Proof.
  split; [reflexivity |].
  exact (libusb_init_exit_balanced env_real_slow calls_real_slow 0 eq_refl).
Defined.

(** X7: [main] gives up at start-up exactly when the demo option is not set
    and libusb does not start, or no device is selected, or the selected
    real device does not connect.  It then returns -1 (no conversion of a
    wait being involved) having created no object of the chain and started
    no thread.  In every other case a device is found, and what [main]
    returns is the value of the GUI loop. *)
Theorem start_up_failure (env : Environment) :
  (start_up_fails env = true ->
   exists pre : list Call,
     find_device env = (pre, inl (-1))
     /\ main env = Some (pre, -1)
     /\ forallb before_device_found pre = true)
  /\ (start_up_fails env = false ->
      exists (pre : list Call) (s : Session),
        find_device env = (pre, inr s)
        /\ forallb before_device_found pre = true
        /\ (forall calls status, main env = Some (calls, status) ->
            status = exec_result env)).
Proof.
  unfold start_up_fails. split; intros Hfail.
  - find_device_paths env; try discriminate; eexists; repeat split; reflexivity.
  - find_device_paths env; try discriminate;
      do 2 eexists; (split; [reflexivity |]); (split; [reflexivity |]);
      intros calls status Hmain;
      (destruct (waitForDso ssize srate) as [ms|]; [| discriminate]);
      injection Hmain as _ <-; reflexivity.
Qed.

(** X7 when the selection dialog is closed without a device. *)
Lemma start_up_failure_witness :
  start_up_fails env_no_device = true
  /\ exists pre : list Call,
       find_device env_no_device = (pre, inl (-1))
       /\ main env_no_device = Some (pre, -1)
       /\ forallb before_device_found pre = true.
Proof.
  split; [reflexivity |].
  exact (proj1 (start_up_failure env_no_device) eq_refl).
Defined.

(** X8: a device that reports as demo device is never connected, and a
    real device is connected exactly once: when a device has been found,
    [connectDevice] is called once if the session is not in demo mode and
    not at all if it is. *)
Theorem connectDevice_not_in_demo_mode (env : Environment) (pre : list Call)
    (s : Session) (calls : list Call) (status : Z) :
  find_device env = (pre, inr s) ->
  main env = Some (calls, status) ->
  filter (fun c => is_connectDevice c = true) calls
  = if demoMode s then [] else [ scopeDevice_connectDevice ].
Proof.
  intros Hfind Hmain.
  assert (Hcalls : exists ms,
            calls = pre ++ build_and_run (verboseLevel env) ++ clean_up s ms).
  { rewrite (main_after_find_device _ _ _ Hfind) in Hmain.
    destruct (waitForDso (getSamplesize env) (getSamplerate env)) as [ms|]; [| discriminate].
    injection Hmain as <- _. eauto. }
  destruct Hcalls as [ms ->]. clear Hmain.
  find_device_paths env; try discriminate; injection Hfind as <- <-; reflexivity.
Qed.

(** X8 when the selection returns the demo device. *)
Lemma connectDevice_not_in_demo_mode_witness :
  find_device env_demo_selected
  = ([ libusb_init; libusb_setlocale; showSelectDeviceModal; libusb_exit ],
     inr {| demoMode := true; context := false; scopeDevice := demo_device |})
  /\ main env_demo_selected = Some (calls_of env_demo_selected, 0)
  /\ filter (fun c => is_connectDevice c = true) (calls_of env_demo_selected) = [].
Proof.
  split; [reflexivity |]. split; [reflexivity |].
  exact (connectDevice_not_in_demo_mode env_demo_selected _ _ _ 0 eq_refl eq_refl).
Defined.

(** X9: when a real device has been found and connected, so that [main]
    goes on past the start-up, the calls [main] makes on the device
    (connectDevice, getModel, getSerialNumber, reset) all come after
    [libusb_init] and before [libusb_exit].  The path on which
    [connectDevice] fails and [main] returns -1 is not covered. *)
Theorem device_used_while_libusb_is_up (env : Environment) (pre : list Call)
    (s : Session) (calls : list Call) (status : Z) :
  find_device env = (pre, inr s) ->
  demoMode s = false ->
  main env = Some (calls, status) ->
  (forall (i j : nat) (a b : Call),
     calls !! i = Some a -> calls !! j = Some b ->
     is_libusb_init a = true -> uses_device b = true -> (i < j)%nat)
  /\ (forall (i j : nat) (a b : Call),
        calls !! i = Some a -> calls !! j = Some b ->
        uses_device a = true -> is_libusb_exit b = true -> (i < j)%nat).
Proof.
  intros Hfind Hdemo Hmain.
  assert (Hcalls : exists ms,
            calls = pre ++ build_and_run (verboseLevel env) ++ clean_up s ms).
  { rewrite (main_after_find_device _ _ _ Hfind) in Hmain.
    destruct (waitForDso (getSamplesize env) (getSamplerate env)) as [ms|]; [| discriminate].
    injection Hmain as <- _. eauto. }
  destruct Hcalls as [ms ->]. clear Hmain.
  find_device_paths env; try discriminate;
    injection Hfind as <- <-; simpl in Hdemo; try discriminate;
    split; apply all_before_spec; reflexivity.
Qed.

(** X9 at [libusb_init], [connectDevice] and the final [libusb_exit]. *)
Lemma device_used_while_libusb_is_up_witness :
  find_device env_real_slow
  = ([ libusb_init; showSelectDeviceModal; scopeDevice_connectDevice ],
     inr {| demoMode := false; context := true; scopeDevice := real_device |})
  /\ main env_real_slow = Some (calls_real_slow, 0)
  /\ calls_real_slow !! 0%nat = Some libusb_init
  /\ calls_real_slow !! 44%nat = Some scopeDevice_reset
  /\ calls_real_slow !! 45%nat = Some libusb_exit
  /\ (0 < 44)%nat /\ (44 < 45)%nat.
Proof.
  split; [reflexivity |]. split; [reflexivity |]. split; [reflexivity |].
  split; [reflexivity |]. split; [reflexivity |].
  pose proof (device_used_while_libusb_is_up env_real_slow _ _ calls_real_slow 0
                eq_refl eq_refl eq_refl) as [H1 H2].
  split.
  - exact (H1 0%nat 44%nat libusb_init scopeDevice_reset eq_refl eq_refl eq_refl eq_refl).
  - exact (H2 44%nat 45%nat scopeDevice_reset libusb_exit eq_refl eq_refl eq_refl eq_refl).
Defined.

(** ** [main]: threads and phases *)

(** X10: when a device has been found, the three threads are started in
    the order post processing, dso control, capturing, every started thread
    is waited for in the clean-up, and the waits come in the reverse order
    of the starts. *)
Theorem threads_stopped_in_reverse_order (env : Environment) (pre : list Call)
    (s : Session) (calls : list Call) (status : Z) :
  find_device env = (pre, inr s) ->
  main env = Some (calls, status) ->
  omap started calls = [ postProcessingThread; dsoControlThread; capturingThread ]
  /\ omap waited_for calls = reverse (omap started calls).
Proof.
  intros Hfind Hmain. main_paths env Hmain; try discriminate; split; reflexivity.
Qed.

(** X10 for a connected device. *)
Lemma threads_stopped_in_reverse_order_witness :
  find_device env_real_slow
  = ([ libusb_init; showSelectDeviceModal; scopeDevice_connectDevice ],
     inr {| demoMode := false; context := true; scopeDevice := real_device |})
  /\ main env_real_slow = Some (calls_real_slow, 0)
  /\ omap waited_for calls_real_slow
     = [ capturingThread; dsoControlThread; postProcessingThread ].
Proof.
  split; [reflexivity |]. split; [reflexivity |].
  pose proof (threads_stopped_in_reverse_order env_real_slow _ _ calls_real_slow 0
                eq_refl eq_refl) as [H1 H2].
  rewrite H2, H1. reflexivity.
Defined.

(** X11: the phases of [main] do not overlap.  All signal connections,
    registrations of exporters and processors and moves to a thread are
    made before the first thread is started; all threads are started before
    the GUI loop is entered; and the clean-up begins only after the GUI loop
    has returned. *)
Theorem phases_in_order (env : Environment) (calls : list Call) (status : Z) :
  main env = Some (calls, status) ->
  (forall (i j : nat) (a b : Call),
     calls !! i = Some a -> calls !! j = Some b ->
     wires a = true -> starts_thread b = true -> (i < j)%nat)
  /\ (forall (i j : nat) (a b : Call),
        calls !! i = Some a -> calls !! j = Some b ->
        starts_thread a = true -> is_exec b = true -> (i < j)%nat)
  /\ (forall (i j : nat) (a b : Call),
        calls !! i = Some a -> calls !! j = Some b ->
        is_exec a = true -> cleans_up b = true -> (i < j)%nat).
Proof.
  intros Hmain.
  main_paths env Hmain; (split; [| split]); apply all_before_spec; reflexivity.
Qed.

(** X11 at the last connection, the first thread start, the GUI loop and
    the first call of the clean-up. *)
Lemma phases_in_order_witness :
  main env_real_slow = Some (calls_real_slow, 0)
  /\ calls_real_slow !! 28%nat = Some (QObject_connect exporterStatusChanged_to_mainWindow)
  /\ calls_real_slow !! 31%nat = Some postProcessingThread_start
  /\ calls_real_slow !! 35%nat = Some openHantekApplication_exec
  /\ calls_real_slow !! 36%nat = Some dsoControl_quitSampling
  /\ (28 < 31)%nat /\ (31 < 35)%nat /\ (35 < 36)%nat.
Proof.
  split; [reflexivity |]. split; [reflexivity |]. split; [reflexivity |].
  split; [reflexivity |]. split; [reflexivity |].
  pose proof (phases_in_order env_real_slow calls_real_slow 0 eq_refl) as (H1 & H2 & H3).
  split; [| split].
  - exact (H1 28%nat 31%nat _ _ eq_refl eq_refl eq_refl eq_refl).
  - exact (H2 31%nat 35%nat _ _ eq_refl eq_refl eq_refl eq_refl).
  - exact (H3 35%nat 36%nat _ _ eq_refl eq_refl eq_refl eq_refl).
Defined.

(** ** The wait *)

Lemma magnitude_nonneg (m : positive) (e : Z) : 0 <= Double.magnitude m e.
Proof.
  unfold Double.magnitude. destruct (0 <=? e) eqn:He.
  - apply Z.leb_le in He. apply Z.mul_nonneg_nonneg; [lia |].
    apply Z.pow_nonneg. lia.
  - apply Z.div_pos; [lia |]. apply Z.pow_pos_nonneg; [lia |].
    apply Z.leb_gt in He. lia.
Qed.

(** A converted value fits the 32-bit type. *)
Lemma to_unsigned_range (f : float) (n : Z) :
  Double.to_unsigned f = Some n -> 0 <= n < 2 ^ 32.
Proof.
  unfold Double.to_unsigned. destruct (Prim2SF f) as [| | |sg m e]; try discriminate.
  - intros H. injection H as <-. lia.
  - pose proof (magnitude_nonneg m e) as Hm.
    destruct sg.
    + destruct (Double.magnitude m e =? 0); [| discriminate].
      intros H. injection H as <-. lia.
    + destruct (Z.ltb_spec (Double.magnitude m e) (2 ^ 32)) as [Hlt|Hge]; [| discriminate].
      intros Hn. injection Hn as <-. lia.
Qed.

(** X12: whatever the sample size and the sample rate, the wait given to
    the acquisition threads, when it has a value, is at least 10000 ms, at
    least the converted record wait, and below 2^32 ms. *)
Theorem waitForDso_range (samplesize : Z) (samplerate : float) (ms : Z) :
  waitForDso samplesize samplerate = Some ms ->
  10000 <= ms < 2 ^ 32
  /\ exists record, record_wait samplesize samplerate = Some record
                    /\ 0 <= record <= ms
                    /\ (10000 <= record -> ms = record).
Proof.
  unfold waitForDso. destruct (record_wait samplesize samplerate) as [record|] eqn:Hr;
    [| discriminate].
  intros H. injection H as <-. rewrite qMax_max.
  apply to_unsigned_range in Hr.
  split; [lia |]. exists record. split; [reflexivity |]. lia.
Qed.

(** X12 for 20000 samples at 1 kS/s. *)
Lemma waitForDso_range_witness :
  waitForDso 20000 1e3 = Some 40000
  /\ 10000 <= 40000 < 2 ^ 32
  /\ exists record, record_wait 20000 1e3 = Some record
                    /\ 0 <= record <= 40000
                    /\ (10000 <= record -> 40000 = record).
Proof.
  split; [reflexivity |].
  exact (waitForDso_range 20000 1e3 40000 eq_refl).
Defined.

(** ** Settings from the command line *)

Lemma qBound_spec (lo val hi : Z) :
  lo <= hi -> qBound lo val hi = Z.max lo (Z.min hi val).
Proof.
  intros H. unfold qBound, qMin. rewrite qMax_max.
  destruct (Z.ltb_spec hi val); lia.
Qed.

(** X13: a font stretch given on the command line is kept within 50..200:
    a value in the range is taken as it is, a smaller one gives 50, a larger
    one 200.  Without the option the default is used unchanged. *)
Theorem condensed_within_bounds (defaultCondensed value : Z) :
  50 <= condensed_setting defaultCondensed (Some value) <= 200
  /\ (50 <= value <= 200 -> condensed_setting defaultCondensed (Some value) = value)
  /\ (value < 50 -> condensed_setting defaultCondensed (Some value) = 50)
  /\ (200 < value -> condensed_setting defaultCondensed (Some value) = 200)
  /\ condensed_setting defaultCondensed None = defaultCondensed.
Proof.
  unfold condensed_setting. rewrite qBound_spec by lia.
  repeat split; lia.
Qed.

(** X13 for the options [-c 75] and [-c 10]. *)
Lemma condensed_within_bounds_witness :
  50 <= 75 <= 200 /\ condensed_setting 87 (Some 75) = 75
  /\ 10 < 50 /\ condensed_setting 87 (Some 10) = 50.
Proof.
  split; [lia |].
  split; [exact (proj1 (proj2 (condensed_within_bounds 87 75)) ltac:(lia)) |].
  split; [lia |].
  exact (proj1 (proj2 (proj2 (condensed_within_bounds 87 10))) ltac:(lia)).
Defined.



(** ** Error reports *)

(** Like [find_device_paths], keeping the outcome of each test. *)
Ltac find_device_paths_eqn env :=
  destruct env as [demo_opt int_opt init_res selected fresh_dev exec_res ssize srate verbose];
  unfold main, find_device, build_and_run in *; simpl in *;
  destruct (verbose =? 0); simpl in *;
  (destruct demo_opt; simpl in *;
   [ | destruct (init_res =? 0) eqn:Hinit; simpl in *;
       [ destruct int_opt; simpl in *;
         (destruct selected as [[is_demo [connected msg]]|]; simpl in *;
          [ destruct is_demo; simpl in *;
            [ | destruct connected; simpl in *;
                [ | destruct (isEmpty msg) eqn:Hmsg; simpl in * ] ]
          | ])
       | ] ]).

(** Finds which entry of a list written out in full a lookup returns. *)
Ltac at_position Hc i :=
  simpl in Hc;
  repeat (destruct i as [|i]; simpl in Hc;
          [ first [discriminate Hc | injection Hc as Hc] | try discriminate Hc ]).

(** X15: every error report of [main] is backed by the failure it reports.
    The libusb failure dialog is shown only when [libusb_init] returned a
    non-zero code, and shows that code; a critical message is logged only
    when a selected real device did not connect, and is the non-empty
    message [connectDevice] gave.  In both cases [main] returns -1. *)
Theorem error_reports_justified (env : Environment) (calls : list Call) (status : Z) :
  main env = Some (calls, status) ->
  (forall (i : nat) (error : Z),
     calls !! i = Some (showLibUSBFailedDialogModel error) ->
     demoModeOption env = false /\ error = libusb_init_result env
     /\ error <> 0 /\ status = -1)
  /\ (forall (i : nat) (errorMessage : string),
        calls !! i = Some (qCritical errorMessage) ->
        status = -1 /\ isEmpty errorMessage = false
        /\ exists device,
             showSelectDeviceModal_result env = Some device
             /\ isDemoDevice device = false
             /\ connectDevice device = (false, errorMessage)).
Proof.
  intros Hmain.
  find_device_paths_eqn env;
    try match type of Hmain with
        | context [waitForDso ?a ?b] =>
            destruct (waitForDso a b) as [ms|]; [| discriminate Hmain]
        end;
    injection Hmain as <- <-;
    (split; intros i x Hc; unfold build_and_run, clean_up in Hc; at_position Hc i).
  all: subst x.
  all: first
    [ split; [reflexivity |]; split; [exact Hmsg |];
      exists {| isDemoDevice := false; connectDevice := (false, msg) |};
      repeat split
    | apply Z.eqb_neq in Hinit; repeat split; assumption ].
Qed.

(** X15 when [libusb_init] returns -99. *)
Lemma error_reports_justified_witness :
  main env_libusb_fails
  = Some ([ libusb_init; showLibUSBFailedDialogModel (-99) ], -1)
  /\ [ libusb_init; showLibUSBFailedDialogModel (-99) ] !! 1%nat
     = Some (showLibUSBFailedDialogModel (-99))
  /\ demoModeOption env_libusb_fails = false
  /\ -99 = libusb_init_result env_libusb_fails
  /\ -99 <> 0 /\ -1 = -1.
Proof.
  split; [reflexivity |]. split; [reflexivity |].
  exact (proj1 (error_reports_justified env_libusb_fails _ (-1) eq_refl)
           1%nat (-99) eq_refl).
Defined.

(** ** The shader language version *)

Lemma prefix_app (p s : string) :
  String.prefix p s = true <-> exists b : string, s = (p ++ b)%string.
Proof.
  revert s. induction p as [|c p IH]; intros s; simpl.
  - destruct s; split; eauto.
  - destruct s as [|d s].
    + split; [discriminate | intros [b Hb]; discriminate].
    + simpl. destruct (Ascii.ascii_dec c d) as [->|Hcd].
      * rewrite IH. split; intros [b Hb]; exists b; congruence.
      * split; [discriminate | intros [b Hb]; congruence].
Qed.

Lemma hasMatch_unfold (p s : string) :
  hasMatch p s
  = String.prefix p s
    || match s with EmptyString => false | String _ rest => hasMatch p rest end.
Proof. destruct s; reflexivity. Qed.

(** [hasMatch] holds exactly when the pattern occurs in the text. *)
Lemma hasMatch_spec (p s : string) :
  hasMatch p s = true <-> exists a b : string, s = (a ++ p ++ b)%string.
Proof.
  split.
  - induction s as [|c s IH]; rewrite hasMatch_unfold; intros H;
      apply orb_true_iff in H as [H|H]; try discriminate.
    + apply prefix_app in H as [b ->]. exists EmptyString, b. reflexivity.
    + apply prefix_app in H as [b ->]. exists EmptyString, b. reflexivity.
    + destruct (IH H) as (a & b & ->). exists (String c a), b. reflexivity.
  - intros (a & b & ->). induction a as [|c a IH]; rewrite hasMatch_unfold.
    + apply orb_true_iff. left. apply prefix_app. eauto.
    + apply orb_true_iff. right. exact IH.
Qed.

(** X16: the command line decides the shader language version before
    anything else: as soon as one of the three options is given, the
    platform and the driver's version string play no part, and the options
    rank useGLES, useGLSL120, useGLSL150.  Without an option, a driver whose
    version string contains "OpenGL ES " gets GLES100 on every platform.
    GLSL150 is chosen only on request or on a Mac. *)
Theorem GLSLversion_priorities (Q_OS_MAC Q_PROCESSOR_ARM : bool) (openGLversion : string)
    (useGLES useGLSL120 useGLSL150 : bool) :
  let version :=
    GLSLversion Q_OS_MAC Q_PROCESSOR_ARM openGLversion useGLES useGLSL120 useGLSL150 in
  (useGLES || useGLSL120 || useGLSL150 = true ->
   forall (mac arm : bool) (driver : string),
     GLSLversion mac arm driver useGLES useGLSL120 useGLSL150 = version)
  /\ (useGLES = true -> version = GLES100)
  /\ (useGLES = false -> useGLSL120 = true -> version = GLSL120)
  /\ (useGLES = false -> useGLSL120 = false -> useGLSL150 = false ->
      (exists a b : string, openGLversion = (a ++ "OpenGL ES " ++ b)%string) ->
      version = GLES100)
  /\ (version = GLSL150 ->
      useGLES = false /\ useGLSL120 = false
      /\ (useGLSL150 = true \/ Q_OS_MAC = true)).
Proof.
  intros version. subst version. unfold GLSLversion.
  split; [| split; [| split; [| split]]].
  - intros Hopt mac arm driver.
    destruct useGLES, useGLSL120, useGLSL150; try reflexivity. discriminate.
  - intros ->. reflexivity.
  - intros -> ->. reflexivity.
  - intros -> -> -> Hes. apply hasMatch_spec in Hes. rewrite Hes. reflexivity.
  - destruct useGLES, useGLSL120, useGLSL150; try discriminate; auto.
    destruct (hasMatch "OpenGL ES " openGLversion); try discriminate.
    destruct Q_OS_MAC; auto. destruct Q_PROCESSOR_ARM; discriminate.
Qed.

(** X16 for the version string of a fresh Windows 10 installation, on a
    Mac and without options. *)
Lemma GLSLversion_priorities_witness :
  (exists a b : string,
     "OpenGL ES 2.0 (ANGLE 2.1.0.57ea533f79a7)"%string = (a ++ "OpenGL ES " ++ b)%string)
  /\ GLSLversion true false "OpenGL ES 2.0 (ANGLE 2.1.0.57ea533f79a7)" false false false
     = GLES100.
Proof.
  assert (H : exists a b : string,
            "OpenGL ES 2.0 (ANGLE 2.1.0.57ea533f79a7)"%string
            = (a ++ "OpenGL ES " ++ b)%string).
  { exists EmptyString, "2.0 (ANGLE 2.1.0.57ea533f79a7)"%string. reflexivity. }
  split; [exact H |].
  exact (proj1 (proj2 (proj2 (proj2
           (GLSLversion_priorities true false "OpenGL ES 2.0 (ANGLE 2.1.0.57ea533f79a7)"
              false false false)))) eq_refl eq_refl eq_refl H).
Defined.

(** The version string of Debian buster's Mesa keeps the default. *)
Example GLSLversion_mesa :
  GLSLversion false false "2.1 Mesa 18.3.6" false false false = GLSL120.
Proof. reflexivity. Qed.

(** ** What the clean-up prints *)

(** X17: the clean-up prints the same line at every verbose level,
    "OpenHantek6022 has stopped after N s" with N the whole seconds of run
    time, in one piece from level 3 on and piece by piece between the steps
    below it; and at every verbose level it makes the same calls. *)
Theorem clean_up_prints_one_line (show : Z -> string) (verboseLevel : Z)
    (s : Session) (waitForDso elapsed : Z) :
  printed (clean_up_steps show verboseLevel s waitForDso elapsed)
  = ("OpenHantek6022 has stopped after " ++ show (elapsed `quot` 1000) ++ " s" ++ newline)%string
  /\ calls_in (clean_up_steps show verboseLevel s waitForDso elapsed)
     = clean_up s waitForDso.
Proof.
  unfold clean_up_steps, clean_up.
  destruct (verboseLevel <? 3), s as [dm [|] dev]; split; reflexivity.
Qed.
